(** * Retail shop backend: catalogue, stock and sales ledger

    A shallow embedding of the Express/Mongoose server of the repository
    (the hybrid-storage server, [app.post], [app.put] and [app.delete]
    handlers) and the properties of its mutating routes.  The login route
    and the three listing routes write nothing and are left out.

    Conventions of the embedding.
    - A MongoDB collection is a finite map from document ids to documents;
      the ledger is kept in insertion order.
    - JavaScript numbers are modelled on their integer fragment: a number
      is [NaN] or an integer.  Fractions and infinities are outside the
      model.
    - A handler is a function from the database to a reply and a database.
      A [try { ... } catch] block is a match on a [result].
    - The only handler that talks to the database twice is the stock
      reduction; its two database steps are separate definitions, and the
      last part of the file interleaves them. *)

From Stdlib Require Import ZArith String Ascii List Bool Lia.
From stdpp Require Import gmap strings list fin_maps sorting.

Local Open Scope Z_scope.

(** ** JavaScript values and the coercions the handlers rely on *)

Module Js.

Inductive number :=
| NaN
| Num (z : Z).

Inductive value :=
| Undefined
| Null
| Bool (b : bool)
| Number (n : number)
| Str (s : string).

Definition digit (c : ascii) : option Z :=
  let n := Z.of_N (N_of_ascii c) in
  if (48 <=? n) && (n <=? 57) then Some (n - 48) else None.

Fixpoint digits (acc : Z) (s : string) : option Z :=
  match s with
  | EmptyString => Some acc
  | String c r =>
      match digit c with
      | Some d => digits (10 * acc + d) r
      | None => None
      end
  end.

Definition unsigned_literal (s : string) : option Z :=
  match s with
  | EmptyString => None
  | _ => digits 0 s
  end.

(** [Number(s)] on a string: the empty string is [0], a decimal integer
    literal with an optional sign is its value, and any other string is
    read as [NaN].  JavaScript also reads as numbers some strings that are
    outside the integer fragment (surrounding white space, fractions,
    exponents, radix prefixes, [Infinity]); those are not covered. *)
Definition StringToNumber (s : string) : number :=
  match s with
  | EmptyString => Num 0
  | String "-"%char r =>
      match unsigned_literal r with Some z => Num (- z) | None => NaN end
  | String "+"%char r =>
      match unsigned_literal r with Some z => Num z | None => NaN end
  | _ =>
      match unsigned_literal s with Some z => Num z | None => NaN end
  end.

(** [Number(v)], also the coercion applied by [>=] and [-=] to an operand
    when the other operand is a number. *)
Definition ToNumber (v : value) : number :=
  match v with
  | Undefined => NaN
  | Null => Num 0
  | Bool true => Num 1
  | Bool false => Num 0
  | Number n => n
  | Str s => StringToNumber s
  end.

(** [a >= b] on numbers: false as soon as one side is [NaN]. *)
Definition ge (a b : number) : bool :=
  match a, b with
  | Num x, Num y => y <=? x
  | _, _ => false
  end.

(** [a - b] on numbers. *)
Definition sub (a b : number) : number :=
  match a, b with
  | Num x, Num y => Num (x - y)
  | _, _ => NaN
  end.

(** Truthiness of an optional string, as in [if (password)]. *)
Definition truthy (s : option string) : bool :=
  match s with
  | None => false
  | Some EmptyString => false
  | Some _ => true
  end.

End Js.

(** ** The part of Mongoose and MongoDB the handlers go through *)

Inductive error :=
| CastError (path : string)
| ValidationError (paths : list string)
| DuplicateKey (index : string)
| DocumentNotFoundError
| IllegalArguments.

Inductive result (A : Type) :=
| Ok (a : A)
| Throw (e : error).

Arguments Ok {A} a.
Arguments Throw {A} e.

Definition bind {A B : Type} (m : result A) (k : A -> result B) : result B :=
  match m with
  | Ok a => k a
  | Throw e => Throw e
  end.

Notation "'let*' x ':=' m 'in' k" := (bind m (fun x => k))
  (at level 10, x pattern, m at level 100, k at level 200).

(** A route parameter [:id] as Mongoose sees it when it casts the string to
    an ObjectId: a well-formed id, or a string that is not one. *)
Inductive id_param :=
| ObjectId (k : N)
| NotObjectId (raw : string).

Definition castObjectId (id : id_param) : result N :=
  match id with
  | ObjectId k => Ok k
  | NotObjectId _ => Throw (CastError "_id")
  end.

(** The Number schema type on a JavaScript number: [NaN] does not cast. *)
Definition castNumber (path : string) (n : Js.number) : result Z :=
  match n with
  | Js.Num z => Ok z
  | Js.NaN => Throw (CastError path)
  end.

(** The Number schema type on a raw body value, for a path that is not
    required: [undefined], [null] and the empty string leave the path
    empty; strings and booleans go through [Number]. *)
Definition castOptionalNumber (path : string) (v : Js.value) : result (option Z) :=
  match v with
  | Js.Undefined | Js.Null | Js.Str EmptyString => Ok None
  | _ => let* z := castNumber path (Js.ToNumber v) in Ok (Some z)
  end.

(** bcrypt, symbolically: a hash is an opaque term over the plaintext and
    the cost. *)
Inductive pwhash :=
| Bcrypt (plaintext : string) (rounds : nat).

Definition bcrypt_hash (password : option string) (rounds : nat) : result pwhash :=
  match password with
  | Some p => Ok (Bcrypt p rounds)
  | None => Throw IllegalArguments
  end.

(** ** Schemas *)

Module User.
Record t := mk { username : string; password : pwhash; role : string }.
End User.

Module Product.
Record t := mk { nama : string; harga : Z; stok : Z; gambar : string }.
Definition set_stok (s : Z) (p : t) : t :=
  mk (nama p) (harga p) s (gambar p).
End Product.

Module Transaction.
Record t := mk {
  id : N;
  namaBuah : option string;
  jumlah : option Z;
  totalHarga : option Z;
  tanggal : Z
}.
End Transaction.

(** The database: three collections and the source of fresh ObjectIds. *)
Record db := mkdb {
  users : gmap N User.t;
  products : gmap N Product.t;
  transactions : list Transaction.t;
  next_oid : N
}.

Definition with_users (us : gmap N User.t) (st : db) : db :=
  mkdb us (products st) (transactions st) (next_oid st).

Definition with_products (ps : gmap N Product.t) (st : db) : db :=
  mkdb (users st) ps (transactions st) (next_oid st).

Definition empty_db : db := mkdb ∅ ∅ [] 0%N.

(** ** Requests and replies *)

Module File.
Record t := mk { path : string; filename : string }.
End File.

Module RegisterBody.
Record t := mk {
  username : option string;
  password : option string;
  role : option string
}.
End RegisterBody.

Module ProductBody.
Record t := mk { nama : option string; harga : Js.value; stok : Js.value }.
End ProductBody.

Module TransactionBody.
Record t := mk {
  namaBuah : option string;
  jumlah : Js.value;
  totalHarga : Js.value;
  tanggal : option Z
}.
End TransactionBody.

Inductive json :=
| JMessage (message : string)
| JError (e : error)
| JNull
| JProduct (k : N) (p : Product.t)
| JStock (message : string) (currentStock : Z)
| JTransaction (t : Transaction.t)
| JUser (k : N) (u : User.t).

(** What the client gets: a status and a body, or nothing when a rejected
    promise escapes a handler that has no [catch]. *)
Inductive reply :=
| Reply (status : nat) (body : json)
| Unhandled (e : error).

(** The HTTP status of a reply, when there is one. *)
Definition status_of (r : reply) : option nat :=
  match r with
  | Reply status _ => Some status
  | Unhandled _ => None
  end.

(** The deployment flag read once at start-up. *)
Record config := mkconfig { isVercel : bool }.

(** ** Model operations *)

(** The [required] validator of a String path: the value must be a string
    of non-zero length. *)
Definition required_string (path : string) (v : option string) : list string :=
  match v with
  | Some (String _ _) => []
  | _ => [path]
  end.

Definition invalid_number (path : string) (n : Js.number) : list string :=
  match n with
  | Js.Num _ => []
  | Js.NaN => [path]
  end.

(** [new Product({ nama, harga, stok, gambar })] followed by the validation
    that [save] runs: every failing path is reported. *)
Definition Product_validate (nama : option string) (harga stok : Js.number)
    (gambar : string) : result Product.t :=
  match nama, harga, stok with
  | Some (String c r), Js.Num h, Js.Num s => Ok (Product.mk (String c r) h s gambar)
  | _, _, _ =>
      Throw (ValidationError (required_string "nama" nama ++
                              invalid_number "harga" harga ++
                              invalid_number "stok" stok))
  end.

(** The [enum] validator and the default of the [role] path. *)
Definition User_role (role : option string) : result string :=
  match role with
  | None => Ok "staff"%string
  | Some r =>
      if (String.eqb r "admin" || String.eqb r "staff")%bool then Ok r
      else Throw (ValidationError ["role"%string])
  end.

(** The unique index that [unique: true] builds on [username]: is the
    name held by a document other than [self]? *)
Definition username_taken (us : gmap N User.t) (self : option N) (u : string) : bool :=
  existsb (fun kv : N * User.t =>
             negb (bool_decide (Some (fst kv) = self)) &&
             String.eqb (User.username (snd kv)) u)
          (map_to_list us).

(** [new User({ username, password, role })] and [save]. *)
Definition User_save (st : db) (username : option string) (password : pwhash)
    (role : option string) : result db :=
  match username with
  | Some (String c r) =>
      let u := String c r in
      let* role := User_role role in
      if username_taken (users st) None u then Throw (DuplicateKey "username")
      else Ok (mkdb (<[next_oid st := User.mk u password role]> (users st))
                    (products st) (transactions st) (N.succ (next_oid st)))
  | _ => Throw (ValidationError ["username"%string])
  end.

(** [new Transaction(req.body)] and [save]: paths outside the schema are
    dropped, the two Number paths are cast, and [tanggal] defaults to the
    clock when the body has none. *)
Definition Transaction_save (now : Z) (st : db) (body : TransactionBody.t)
    : result (Transaction.t * db) :=
  let* jumlah := castOptionalNumber "jumlah" (TransactionBody.jumlah body) in
  let* totalHarga := castOptionalNumber "totalHarga" (TransactionBody.totalHarga body) in
  let tanggal := match TransactionBody.tanggal body with Some d => d | None => now end in
  let trx := Transaction.mk (next_oid st) (TransactionBody.namaBuah body)
                            jumlah totalHarga tanggal in
  Ok (trx, mkdb (users st) (products st) (transactions st ++ [trx])
                (N.succ (next_oid st))).

(** ** Route handlers *)

(** [app.post('/api/auth/register')] *)
Definition post_auth_register (st : db) (body : RegisterBody.t) : reply * db :=
  let saved :=
    let* hashedPassword := bcrypt_hash (RegisterBody.password body) 10 in
    User_save st (RegisterBody.username body) hashedPassword (RegisterBody.role body) in
  match saved with
  | Ok st' => (Reply 201 (JMessage "User berhasil dibuat"), st')
  | Throw _ => (Reply 400 (JMessage "Username sudah ada"), st)
  end.

(** The image reference of an upload: the remote URL on Vercel, the local
    file name otherwise. *)
Definition image_reference (cfg : config) (f : File.t) : string :=
  if isVercel cfg then File.path f else File.filename f.

(** The [gambar] of a new product: the reference of the upload, or the
    empty string without one. *)
Definition uploaded (cfg : config) (file : option File.t) : string :=
  match file with
  | Some f => image_reference cfg f
  | None => ""%string
  end.

(** [app.post('/api/products')] *)
Definition post_products (cfg : config) (st : db) (body : ProductBody.t)
    (file : option File.t) : reply * db :=
  let gambar := uploaded cfg file in
  match Product_validate (ProductBody.nama body)
                         (Js.ToNumber (ProductBody.harga body))
                         (Js.ToNumber (ProductBody.stok body)) gambar with
  | Ok newProduct =>
      (Reply 201 (JProduct (next_oid st) newProduct),
       mkdb (users st) (<[next_oid st := newProduct]> (products st))
            (transactions st) (N.succ (next_oid st)))
  | Throw err => (Reply 400 (JError err), st)
  end.

(** The update document of [app.put('/api/products/:id')],
    [{ nama, harga: Number(harga), stok: Number(stok) }] with [gambar]
    added when there is an upload, after Mongoose has cast it: an
    undefined [nama] is dropped from the update (Mongoose 6 and later;
    version 5 wrote null for it), [harga] and [stok] are always present
    and must cast, so [NaN] throws.  Validators do not run on updates. *)
Definition Product_castUpdate (cfg : config) (body : ProductBody.t)
    (file : option File.t) : result (Product.t -> Product.t) :=
  let* harga := castNumber "harga" (Js.ToNumber (ProductBody.harga body)) in
  let* stok := castNumber "stok" (Js.ToNumber (ProductBody.stok body)) in
  Ok (fun old =>
        Product.mk
          (match ProductBody.nama body with Some n => n | None => Product.nama old end)
          harga stok
          (match file with
           | Some f => image_reference cfg f
           | None => Product.gambar old
           end)).

(** [app.put('/api/products/:id')] *)
Definition put_products_id (cfg : config) (st : db) (id : id_param)
    (body : ProductBody.t) (file : option File.t) : reply * db :=
  let updated :=
    let* k := castObjectId id in
    let* updateData := Product_castUpdate cfg body file in
    Ok (k, updateData) in
  match updated with
  | Ok (k, updateData) =>
      match products st !! k with
      | Some old =>
          (Reply 200 (JProduct k (updateData old)),
           with_products (<[k := updateData old]> (products st)) st)
      | None => (Reply 200 JNull, st)
      end
  | Throw err => (Reply 400 (JError err), st)
  end.

(** [app.delete('/api/products/:id')] *)
Definition delete_products_id (st : db) (id : id_param) : reply * db :=
  match castObjectId id with
  | Ok k => (Reply 200 (JMessage "Produk dihapus"),
             with_products (delete k (products st)) st)
  | Throw err => (Reply 500 (JError err), st)
  end.

(** [app.post('/api/transactions')] *)
Definition post_transactions (now : Z) (st : db) (body : TransactionBody.t)
    : reply * db :=
  match Transaction_save now st body with
  | Ok (trx, st') => (Reply 201 (JTransaction trx), st')
  | Throw err => (Reply 500 (JError err), st)
  end.

(** *** Stock reduction

    [app.post('/api/products/:id/reduce-stock')] reaches the database
    twice, at [await Product.findById] and at [await product.save()].
    Between the two the handler only holds its own copy of the document. *)

(** A handler suspended at [await product.save()]: the id of its document
    and the value it has assigned to [product.stok]. *)
Record pending_save := mkpending { doc_id : N; doc_stok : Js.number }.

(** First half: [findById], the guard, and [product.stok -= quantity] on the
    handler's copy.  Either the handler has replied, or it is about to
    save. *)
Definition reduce_stock_find (st : db) (id : id_param) (quantity : Js.value)
    : reply + pending_save :=
  match castObjectId id with
  | Throw err => inl (Reply 500 (JError err))
  | Ok k =>
      match products st !! k with
      | Some product =>
          if Js.ge (Js.Num (Product.stok product)) (Js.ToNumber quantity)
          then inr (mkpending k (Js.sub (Js.Num (Product.stok product))
                                        (Js.ToNumber quantity)))
          else inl (Reply 400 (JMessage "Stok tidak cukup"))
      | None => inl (Reply 400 (JMessage "Stok tidak cukup"))
      end
  end.

(** Second half: [product.save()] validates the modified path and writes
    it to the stored document with that id, which must still exist; then
    the handler replies with its own copy's stock. *)
Definition reduce_stock_save (st : db) (p : pending_save) : reply * db :=
  match doc_stok p with
  | Js.NaN => (Reply 500 (JError (ValidationError ["stok"%string])), st)
  | Js.Num s =>
      match products st !! doc_id p with
      | Some stored =>
          (Reply 200 (JStock "Stok dikurangi" s),
           with_products (<[doc_id p := Product.set_stok s stored]> (products st)) st)
      | None => (Reply 500 (JError DocumentNotFoundError), st)
      end
  end.

(** The handler run from start to end with no other request in between. *)
Definition post_products_id_reduce_stock (st : db) (id : id_param)
    (quantity : Js.value) : reply * db :=
  match reduce_stock_find st id quantity with
  | inl r => (r, st)
  | inr p => reduce_stock_save st p
  end.

(** *** User management *)

(** [app.put('/api/users/:id')]: undefined [username] and [role] are
    dropped from the update, the password is replaced only when truthy,
    and the unique index on [username] is the only check. *)
Definition put_users_id (st : db) (id : id_param) (body : RegisterBody.t)
    : reply * db :=
  let hashed :=
    if Js.truthy (RegisterBody.password body)
    then match bcrypt_hash (RegisterBody.password body) 10 with
         | Ok h => Some h
         | Throw _ => None
         end
    else None in
  match castObjectId id with
  | Throw err => (Reply 400 (JError err), st)
  | Ok k =>
      match users st !! k with
      | None => (Reply 200 JNull, st)
      | Some old =>
          let clash :=
            match RegisterBody.username body with
            | Some u => username_taken (users st) (Some k) u
            | None => false
            end in
          if clash then (Reply 400 (JError (DuplicateKey "username")), st)
          else
            let user :=
              User.mk
                (match RegisterBody.username body with
                 | Some u => u | None => User.username old end)
                (match hashed with Some h => h | None => User.password old end)
                (match RegisterBody.role body with
                 | Some r => r | None => User.role old end) in
            (Reply 200 (JUser k user), with_users (<[k := user]> (users st)) st)
      end
  end.

(** [app.delete('/api/users/:id')]: no [try] around the query. *)
Definition delete_users_id (st : db) (id : id_param) : reply * db :=
  match castObjectId id with
  | Ok k => (Reply 200 (JMessage "User dihapus"), with_users (delete k (users st)) st)
  | Throw err => (Unhandled err, st)
  end.

(** ** The mutating routes as one transition function *)

Inductive route :=
| PostAuthRegister (body : RegisterBody.t)
| PostProducts (body : ProductBody.t) (file : option File.t)
| PutProductsId (id : id_param) (body : ProductBody.t) (file : option File.t)
| DeleteProductsId (id : id_param)
| PostTransactions (body : TransactionBody.t)
| PostProductsIdReduceStock (id : id_param) (quantity : Js.value)
| PutUsersId (id : id_param) (body : RegisterBody.t)
| DeleteUsersId (id : id_param).

(** A request: the [Authorization] header as sent, and the route with its
    parameters, body and upload. *)
Record request := mkrequest {
  authorization : option string;
  target : route
}.

Definition handle (cfg : config) (now : Z) (st : db) (req : request) : reply * db :=
  match target req with
  | PostAuthRegister body => post_auth_register st body
  | PostProducts body file => post_products cfg st body file
  | PutProductsId id body file => put_products_id cfg st id body file
  | DeleteProductsId id => delete_products_id st id
  | PostTransactions body => post_transactions now st body
  | PostProductsIdReduceStock id quantity => post_products_id_reduce_stock st id quantity
  | PutUsersId id body => put_users_id st id body
  | DeleteUsersId id => delete_users_id st id
  end.

(** ** Requests in flight

    Node runs one handler at a time and switches handlers only at an
    [await].  Every route but the stock reduction awaits the database
    once, so it is one step of the system; a stock reduction is two steps,
    and anything may run between them. *)

Inductive task :=
| AwaitingSave (p : pending_save)
| Responded (r : reply).

Record system := mksystem { store : db; tasks : list task }.

Inductive event :=
| Serve (now : Z) (req : request)
| Find (id : id_param) (quantity : Js.value)
| Save (i : nat).

Definition step (cfg : config) (s : system) (ev : event) : system :=
  match ev with
  | Serve now req =>
      let '(r, st') := handle cfg now (store s) req in
      mksystem st' (tasks s ++ [Responded r])
  | Find id quantity =>
      match reduce_stock_find (store s) id quantity with
      | inl r => mksystem (store s) (tasks s ++ [Responded r])
      | inr p => mksystem (store s) (tasks s ++ [AwaitingSave p])
      end
  | Save i =>
      match tasks s !! i with
      | Some (AwaitingSave p) =>
          let '(r, st') := reduce_stock_save (store s) p in
          mksystem st' (<[i := Responded r]> (tasks s))
      | _ => s
      end
  end.

Definition run (cfg : config) (s : system) (evs : list event) : system :=
  fold_left (step cfg) evs s.


(** The stock of product [k], when it exists. *)
Definition stock_of (st : db) (k : N) : option Z :=
  Product.stok <$> products st !! k.


(** ** Invariants and events of the properties *)







(** ** Sample data *)

Definition local_disk : config := mkconfig false.

Definition apple : Product.t := Product.mk "Apple" 10000 50 "".

Definition apple_body : ProductBody.t :=
  ProductBody.mk (Some "Apple"%string) (Js.Str "10000") (Js.Str "50").

(** The shop after [apple] has been created as its first document. *)
Definition apple_db : db := mkdb ∅ (<[0%N := apple]> ∅) [] 1%N.

(** A sale of [q] units for a total of [t]. *)
Definition sale (name : option string) (q t : Z) (date : option Z) : TransactionBody.t :=
  TransactionBody.mk name (Js.Number (Js.Num q)) (Js.Number (Js.Num t)) date.

Definition budi : RegisterBody.t :=
  RegisterBody.mk (Some "budi"%string) (Some "rahasia"%string) None.

Definition budi_again : RegisterBody.t :=
  RegisterBody.mk (Some "budi"%string) (Some "lain"%string) (Some "admin"%string).

(** A system with no request in flight. *)
Definition fresh (st : db) : system := mksystem st [].

Definition create (body : ProductBody.t) : event :=
  Serve 0 (mkrequest None (PostProducts body None)).


(** The first half of a stock reduction by [q] on product [k]. *)
Definition reduce (k : N) (q : Z) : event := Find (ObjectId k) (Js.Number (Js.Num q)).

(** ** The process environment, login and the sales listing *)

(** The variables of [process.env] the server reads to pick its storage
    and its signing secret. *)
Record process_env := mkprocess_env {
  VERCEL : option string;
  NODE_ENV : option string;
  env_JWT_SECRET : option string
}.


(** [process.env.JWT_SECRET || 'rahasia_toko_buah_super_aman'] *)
Definition JWT_SECRET (e : process_env) : string :=
  match env_JWT_SECRET e with
  | Some (String c r) => String c r
  | _ => "rahasia_toko_buah_super_aman"%string
  end.


(** A token, symbolically: the payload [{ id, role }] under the secret it
    was signed with.  No expiry is put into it. *)
Inductive jwt :=
| Jwt (id : N) (role : string) (secret : string).

(** [bcrypt.compare], symbolically: the plaintexts are equal.  It throws
    on an undefined password.  (That bcrypt only looks at the first 72
    bytes is outside the model.) *)
Definition bcrypt_compare (password : option string) (hash : pwhash) : result bool :=
  match password, hash with
  | Some p, Bcrypt p' _ => Ok (String.eqb p p')
  | None, _ => Throw IllegalArguments
  end.

(** [User.findOne({ username })]: a document with that username. *)
Definition User_findOne (us : gmap N User.t) (u : string) : option (N * User.t) :=
  List.find (fun kv : N * User.t => String.eqb (User.username (snd kv)) u)
            (map_to_list us).

(** The login body.  Its [username] is taken to be a string: a body
    without one is outside the model. *)
Module LoginBody.
Record t := mk { username : string; password : option string }.
End LoginBody.

(** What login answers: 200 with [{ token, role, username }], or a reply
    without a token. *)
Inductive login_reply :=
| Authenticated (token : jwt) (role : string) (username : string)
| Refused (r : reply).

(** [app.post('/api/auth/login')]: [bcrypt.compare] only runs when a user
    was found. *)
Definition post_auth_login (secret : string) (st : db) (body : LoginBody.t)
    : login_reply :=
  match User_findOne (users st) (LoginBody.username body) with
  | Some (k, user) =>
      match bcrypt_compare (LoginBody.password body) (User.password user) with
      | Ok true =>
          Authenticated (Jwt k (User.role user) secret)
                        (User.role user) (User.username user)
      | Ok false => Refused (Reply 401 (JMessage "Username/Password Salah"))
      | Throw err => Refused (Reply 500 (JError err))
      end
  | None => Refused (Reply 401 (JMessage "Username/Password Salah"))
  end.

(** [a] is at least as recent as [b]: the order of [sort({ tanggal: -1 })]. *)
Definition more_recent (a b : Transaction.t) : Prop :=
  Transaction.tanggal b <= Transaction.tanggal a.

#[global] Instance more_recent_dec (a b : Transaction.t) : Decision (more_recent a b) :=
  Z_le_dec (Transaction.tanggal b) (Transaction.tanggal a).


(** ** The Cloudinary-only server

    The second server file of the repository stores every upload
    remotely; its product routes read [req.file.path] with no flag. *)

Module CloudOnly.

Definition post_products (st : db) (body : ProductBody.t) (file : option File.t)
    : reply * db :=
  let gambar :=
    match file with
    | Some f => File.path f
    | None => ""%string
    end in
  match Product_validate (ProductBody.nama body)
                         (Js.ToNumber (ProductBody.harga body))
                         (Js.ToNumber (ProductBody.stok body)) gambar with
  | Ok newProduct =>
      (Reply 201 (JProduct (next_oid st) newProduct),
       mkdb (users st) (<[next_oid st := newProduct]> (products st))
            (transactions st) (N.succ (next_oid st)))
  | Throw err => (Reply 400 (JError err), st)
  end.

Definition put_products_id (st : db) (id : id_param) (body : ProductBody.t)
    (file : option File.t) : reply * db :=
  let updated :=
    let* k := castObjectId id in
    let* harga := castNumber "harga" (Js.ToNumber (ProductBody.harga body)) in
    let* stok := castNumber "stok" (Js.ToNumber (ProductBody.stok body)) in
    Ok (k, fun old =>
             Product.mk
               (match ProductBody.nama body with
                | Some n => n | None => Product.nama old end)
               harga stok
               (match file with
                | Some f => File.path f
                | None => Product.gambar old
                end)) in
  match updated with
  | Ok (k, updateData) =>
      match products st !! k with
      | Some old =>
          (Reply 200 (JProduct k (updateData old)),
           with_products (<[k := updateData old]> (products st)) st)
      | None => (Reply 200 JNull, st)
      end
  | Throw err => (Reply 400 (JError err), st)
  end.

End CloudOnly.

(** ** Predicates of the further properties *)

(** No two user documents share a username. *)
Definition unique_usernames (us : gmap N User.t) : Prop :=
  forall k1 k2 u1 u2,
    us !! k1 = Some u1 -> us !! k2 = Some u2 ->
    User.username u1 = User.username u2 -> k1 = k2.


(** * Properties *)

(** Unfolds the route handlers down to the model operations. *)
Ltac open_handlers :=
  unfold handle, post_auth_register, post_products, put_products_id,
    delete_products_id, post_transactions, post_products_id_reduce_stock,
    reduce_stock_find, reduce_stock_save, put_users_id, delete_users_id,
    User_save, Transaction_save, bind in *.

(** ** Coercions *)

Lemma ge_Num (x y : Z) : Js.ge (Js.Num x) (Js.Num y) = (y <=? x).
Proof. reflexivity. Qed.


Example Number_of_strings :
  Js.ToNumber (Js.Str "50") = Js.Num 50 /\
  Js.ToNumber (Js.Str "-3") = Js.Num (-3) /\
  Js.ToNumber (Js.Str "") = Js.Num 0 /\
  Js.ToNumber (Js.Str "abc") = Js.NaN /\
  Js.ToNumber (Js.Str "-") = Js.NaN /\
  Js.ToNumber Js.Undefined = Js.NaN.
Proof. repeat split. Qed.

(** ** Stock reduction, one request at a time *)


Lemma reduce_stock_short (st : db) (k : N) (p : Product.t) (v : Js.value) (q : Z) :
  products st !! k = Some p ->
  Js.ToNumber v = Js.Num q ->
  Product.stok p < q ->
  post_products_id_reduce_stock st (ObjectId k) v =
    (Reply 400 (JMessage "Stok tidak cukup"), st).
Proof.
  intros Hk Hv Hq.
  unfold post_products_id_reduce_stock, reduce_stock_find, castObjectId.
  rewrite Hk, Hv, ge_Num.
  destruct (Z.leb_spec q (Product.stok p)) as [Hle|_]; [lia|reflexivity].
Qed.




(** The worked example of the specification: create Apple with stock 50,
    reduce by 20, then ask for 40 of the remaining 30. *)
Example apple_scenario :
  let '(r0, st0) := post_products local_disk empty_db apple_body None in
  let '(r1, st1) := post_products_id_reduce_stock st0 (ObjectId 0) (Js.Number (Js.Num 20)) in
  let '(r2, st2) := post_products_id_reduce_stock st1 (ObjectId 0) (Js.Number (Js.Num 40)) in
  r0 = Reply 201 (JProduct 0 apple) /\
  r1 = Reply 200 (JStock "Stok dikurangi" 30) /\
  r2 = Reply 400 (JMessage "Stok tidak cukup") /\
  stock_of st1 0 = Some 30 /\ st2 = st1.
Proof. vm_compute. repeat split. Qed.

(** A product deleted between the two halves of a reduction is not
    brought back: [save] finds no document and the reply is 500. *)
Example save_after_delete :
  let s := run local_disk (fresh apple_db)
               [reduce 0 20; Serve 0 (mkrequest None (DeleteProductsId (ObjectId 0))); Save 0] in
  tasks s = [Responded (Reply 500 (JError DocumentNotFoundError));
             Responded (Reply 200 (JMessage "Produk dihapus"))] /\
  stock_of (store s) 0 = None.
Proof. vm_compute. split; reflexivity. Qed.



(** ** Stock reduction on an id without a product *)

Lemma reduce_stock_absent (st : db) (k : N) (v : Js.value) :
  products st !! k = None ->
  post_products_id_reduce_stock st (ObjectId k) v =
    (Reply 400 (JMessage "Stok tidak cukup"), st).
Proof.
  intros Hk. unfold post_products_id_reduce_stock, reduce_stock_find, castObjectId.
  now rewrite Hk.
Qed.

(** C4, as the claim states it, fails: on a well-formed id that names no
    product the reply is the very reply given for insufficient stock on
    an existing product. *)
Lemma reduce_stock_not_found_counterexample :
  products apple_db !! 7%N = None /\
  products apple_db !! 0%N = Some apple /\
  Product.stok apple < 60 /\
  fst (post_products_id_reduce_stock apple_db (ObjectId 7) (Js.Number (Js.Num 1)))
    = fst (post_products_id_reduce_stock apple_db (ObjectId 0) (Js.Number (Js.Num 60))).
Proof. split; [reflexivity|]. split; [reflexivity|]. split; [simpl; lia|reflexivity]. Qed.

(** C4, amended.  For a well-formed id that names no product, and any
    quantity, the reduction replies 400 "Stok tidak cukup" and leaves the
    database unchanged: the same reply as for insufficient stock on an
    existing product, with no separate NotFound.  An id that is not an
    ObjectId is answered 500 with the cast error. *)
Theorem reduce_stock_missing_product (st : db) (k : N) (v : Js.value) :
  products st !! k = None ->
  post_products_id_reduce_stock st (ObjectId k) v
    = (Reply 400 (JMessage "Stok tidak cukup"), st) /\
  (forall k' p' v' q',
      products st !! k' = Some p' ->
      Js.ToNumber v' = Js.Num q' ->
      Product.stok p' < q' ->
      post_products_id_reduce_stock st (ObjectId k') v'
        = post_products_id_reduce_stock st (ObjectId k) v) /\
  (forall raw,
      post_products_id_reduce_stock st (NotObjectId raw) v
        = (Reply 500 (JError (CastError "_id")), st)).
Proof.
  intros Hk. rewrite (reduce_stock_absent st k v Hk).
  split; [reflexivity|]. split.
  - intros k' p' v' q' Hk' Hv' Hq'. now apply reduce_stock_short with (p := p') (q := q').
  - reflexivity.
Qed.

Lemma reduce_stock_missing_product_witness :
  products apple_db !! 7%N = None /\
  post_products_id_reduce_stock apple_db (ObjectId 7) (Js.Number (Js.Num 1))
    = (Reply 400 (JMessage "Stok tidak cukup"), apple_db).
Proof.
  split; [reflexivity|].
  apply (reduce_stock_missing_product apple_db 7 (Js.Number (Js.Num 1)) eq_refl).
Defined.

(** ** Product creation *)






(** ** Product update *)

(** Without a price, or without a stock, the update document does not cast
    and nothing is written. *)
Lemma update_product_needs_price_and_stock
    (cfg : config) (st : db) (k : N) (body : ProductBody.t) (file : option File.t) :
  Js.ToNumber (ProductBody.harga body) = Js.NaN \/
  Js.ToNumber (ProductBody.stok body) = Js.NaN ->
  exists path,
    put_products_id cfg st (ObjectId k) body file = (Reply 400 (JError (CastError path)), st).
Proof.
  intros H. unfold put_products_id, Product_castUpdate. simpl.
  destruct (Js.ToNumber (ProductBody.harga body)) as [|h]; simpl; [eauto|].
  destruct (Js.ToNumber (ProductBody.stok body)) as [|s]; simpl; [eauto|].
  destruct H; discriminate.
Qed.

Lemma update_product_written
    (cfg : config) (st : db) (k : N) (old : Product.t) (body : ProductBody.t)
    (file : option File.t) (h s : Z) :
  products st !! k = Some old ->
  Js.ToNumber (ProductBody.harga body) = Js.Num h ->
  Js.ToNumber (ProductBody.stok body) = Js.Num s ->
  let new :=
    Product.mk
      (match ProductBody.nama body with Some n => n | None => Product.nama old end)
      h s
      (match file with Some f => image_reference cfg f | None => Product.gambar old end) in
  put_products_id cfg st (ObjectId k) body file
    = (Reply 200 (JProduct k new), with_products (<[k := new]> (products st)) st).
Proof.
  intros Hk Hh Hs. unfold put_products_id, Product_castUpdate. simpl.
  rewrite Hh, Hs. simpl. now rewrite Hk.
Qed.

(** An update that names only the product is refused and writes nothing. *)
Example update_name_only :
  put_products_id local_disk apple_db (ObjectId 0)
      (ProductBody.mk (Some "Apel"%string) Js.Undefined Js.Undefined) None
    = (Reply 400 (JError (CastError "harga")), apple_db).
Proof. reflexivity. Qed.

(** C7.  After an update of an existing product the product is still
    there, and every field the request did not supply (name, price, stock,
    image) has exactly the value it had before.  (An update that leaves
    out price or stock is refused as a whole, see
    [update_product_needs_price_and_stock].) *)
Theorem update_product_frame
    (cfg : config) (st : db) (k : N) (old : Product.t) (body : ProductBody.t)
    (file : option File.t) :
  products st !! k = Some old ->
  exists new,
    products (snd (put_products_id cfg st (ObjectId k) body file)) !! k = Some new /\
    (ProductBody.nama body = None -> Product.nama new = Product.nama old) /\
    (ProductBody.harga body = Js.Undefined -> Product.harga new = Product.harga old) /\
    (ProductBody.stok body = Js.Undefined -> Product.stok new = Product.stok old) /\
    (file = None -> Product.gambar new = Product.gambar old).
Proof.
  intros Hk.
  destruct (Js.ToNumber (ProductBody.harga body)) as [|h] eqn:Hh;
    [|destruct (Js.ToNumber (ProductBody.stok body)) as [|s] eqn:Hs].
  - destruct (update_product_needs_price_and_stock cfg st k body file (or_introl Hh))
      as [path ->].
    exists old. simpl. auto.
  - destruct (update_product_needs_price_and_stock cfg st k body file (or_intror Hs))
      as [path ->].
    exists old. simpl. auto.
  - rewrite (update_product_written cfg st k old body file h s Hk Hh Hs). simpl.
    eexists. rewrite lookup_insert_eq. split; [reflexivity|]. simpl.
    split; [intros ->; reflexivity|].
    split; [intros E; rewrite E in Hh; discriminate|].
    split; [intros E; rewrite E in Hs; discriminate|].
    intros ->; reflexivity.
Qed.

Lemma update_product_frame_witness :
  products apple_db !! 0%N = Some apple /\
  exists new,
    products (snd (put_products_id local_disk apple_db (ObjectId 0)
                     (ProductBody.mk None (Js.Str "12000") (Js.Str "45")) None)) !! 0%N
      = Some new /\
    Product.nama new = "Apple"%string /\ Product.gambar new = ""%string.
Proof.
  split; [reflexivity|].
  destruct (update_product_frame local_disk apple_db 0 apple
              (ProductBody.mk None (Js.Str "12000") (Js.Str "45")) None eq_refl)
    as (new & Hnew & Hnama & _ & _ & Hgambar).
  exists new. split; [exact Hnew|].
  split; [exact (Hnama eq_refl)|exact (Hgambar eq_refl)].
Defined.

(** ** The sales ledger *)

Lemma record_sale_numeric (now : Z) (st : db) (name : option string) (q t : Z)
    (date : option Z) :
  let trx := Transaction.mk (next_oid st) name (Some q) (Some t)
               (match date with Some d => d | None => now end) in
  post_transactions now st (sale name q t date)
    = (Reply 201 (JTransaction trx),
       mkdb (users st) (products st) (transactions st ++ [trx]) (N.succ (next_oid st))).
Proof. reflexivity. Qed.

(** C8, as the claim states it, fails: a sale of quantity [0] for a total
    of [-5] is recorded, and a sale that brings its own [tanggal] keeps it
    instead of the server's clock. *)
Lemma record_sale_validation_counterexample :
  let out := post_transactions 1000 apple_db (sale (Some "Apple"%string) 0 (-5) None) in
  let out' := post_transactions 1000 apple_db (sale (Some "Apple"%string) 2 20000 (Some 7)) in
  0 <= 0 /\ -5 <= 0 /\
  fst out = Reply 201 (JTransaction
              (Transaction.mk 1 (Some "Apple"%string) (Some 0) (Some (-5)) 1000)) /\
  length (transactions (snd out)) = 1%nat /\
  (exists trx, transactions (snd out') = [trx] /\ Transaction.tanggal trx = 7 /\ 7 <> 1000).
Proof.
  split; [lia|]. split; [lia|]. split; [reflexivity|]. split; [reflexivity|].
  eexists. split; [reflexivity|]. split; [reflexivity|lia].
Qed.

(** Every route leaves the recorded sales in place; only the sales route
    adds one, at the end. *)
Lemma handle_ledger (cfg : config) (now : Z) (st : db) (req : request) :
  transactions (snd (handle cfg now st req)) = transactions st \/
  exists trx, transactions (snd (handle cfg now st req)) = transactions st ++ [trx].
Proof.
  destruct req as [a r].
  destruct r as [b|b f|i b f|i|b|i q|i b|i]; open_handlers; simpl;
    repeat case_match; simplify_eq; simpl;
    try (left; reflexivity); right; eexists; reflexivity.
Qed.

Lemma step_ledger (cfg : config) (s : system) (ev : event) :
  transactions (store s) `prefix_of` transactions (store (step cfg s ev)).
Proof.
  destruct ev as [now req|id q|i]; simpl.
  - pose proof (handle_ledger cfg now (store s) req) as H.
    destruct (handle cfg now (store s) req) as [r st']. simpl in *.
    destruct H as [->|[trx ->]]; [reflexivity|]. now exists [trx].
  - destruct (reduce_stock_find (store s) id q); reflexivity.
  - destruct (tasks s !! i) as [[p|r]|]; try reflexivity.
    unfold reduce_stock_save. repeat case_match; simplify_eq; reflexivity.
Qed.

Lemma run_ledger (cfg : config) (evs : list event) (s : system) :
  transactions (store s) `prefix_of` transactions (store (run cfg s evs)).
Proof.
  revert s. induction evs as [|ev evs IH]; intros s; simpl; [reflexivity|].
  etransitivity; [apply (step_ledger cfg s ev)|apply IH].
Qed.

(** C8, amended.  The sales route checks no range: for every integer
    quantity and total price, of either sign, it replies 201 and appends
    exactly one entry that carries them.  The entry's timestamp is the
    server's clock when the body brings no [tanggal], and the body's
    [tanggal] otherwise.  Whatever runs afterwards, the entries recorded
    so far stay as they are at the front of the ledger. *)
Theorem record_sale_appends
    (cfg : config) (now : Z) (st : db) (name : option string) (q t : Z)
    (date : option Z) (s : system) (evs : list event) :
  let out := post_transactions now st (sale name q t date) in
  (exists trx,
     fst out = Reply 201 (JTransaction trx) /\
     transactions (snd out) = transactions st ++ [trx] /\
     Transaction.namaBuah trx = name /\
     Transaction.jumlah trx = Some q /\
     Transaction.totalHarga trx = Some t /\
     Transaction.tanggal trx = match date with Some d => d | None => now end) /\
  transactions (store s) `prefix_of` transactions (store (run cfg s evs)).
Proof.
  intros out. subst out. rewrite record_sale_numeric. simpl. split.
  - eexists. repeat (split; [reflexivity|]). reflexivity.
  - apply run_ledger.
Qed.

(** ** Registration *)

Lemma username_taken_spec (us : gmap N User.t) (self : option N) (u : string) :
  username_taken us self u = true <->
  exists k usr, us !! k = Some usr /\ Some k <> self /\ User.username usr = u.
Proof.
  unfold username_taken. rewrite existsb_exists. split.
  - intros ([k usr] & Hin & H). simpl in H.
    apply andb_true_iff in H as [H1 H2].
    apply negb_true_iff, bool_decide_eq_false in H1.
    apply String.eqb_eq in H2.
    exists k, usr. split; [|auto].
    now apply elem_of_map_to_list, list_elem_of_In.
  - intros (k & usr & Hk & Hself & Hu). exists (k, usr). split.
    + now apply list_elem_of_In, elem_of_map_to_list.
    + simpl. apply andb_true_iff. split.
      * now apply negb_true_iff, bool_decide_eq_false.
      * now apply String.eqb_eq.
Qed.

Lemma register_created (st st1 : db) (body : RegisterBody.t) (m : string) :
  post_auth_register st body = (Reply 201 (JMessage m), st1) ->
  exists u p r,
    RegisterBody.username body = Some u /\
    RegisterBody.password body = Some p /\
    User_role (RegisterBody.role body) = Ok r /\
    username_taken (users st) None u = false /\
    st1 = mkdb (<[next_oid st := User.mk u (Bcrypt p 10) r]> (users st))
               (products st) (transactions st) (N.succ (next_oid st)).
Proof.
  destruct body as [[u|] [p|] role]; unfold post_auth_register, User_save; simpl;
    try (destruct u; discriminate); try discriminate.
  destruct u as [|c w]; [discriminate|].
  destruct (User_role role) as [r|e] eqn:Hr; simpl; [|discriminate].
  destruct (username_taken (users st) None (String c w)) eqn:Ht; [discriminate|].
  intros H. injection H as _ <-. exists (String c w), p, r. auto.
Qed.

Lemma register_taken (st : db) (body : RegisterBody.t) (u : string) :
  RegisterBody.username body = Some u ->
  username_taken (users st) None u = true ->
  post_auth_register st body = (Reply 400 (JMessage "Username sudah ada"), st).
Proof.
  intros Hu Ht. destruct body as [name [p|] role]; simpl in Hu; subst name;
    unfold post_auth_register, User_save; simpl; [|reflexivity].
  destruct u as [|c w]; [reflexivity|].
  destruct (User_role role); simpl; [|reflexivity].
  now rewrite Ht.
Qed.

(** C9.  After a successful registration of username [u], the user record
    it created (id, password hash, role) is in the collection; a second
    registration of [u], with any password and role, replies 400
    "Username sudah ada" (DuplicateUsername) and leaves the database, and
    so that record, unchanged. *)
Theorem register_duplicate_username
    (st st1 : db) (first second : RegisterBody.t) (u : string) :
  RegisterBody.username first = Some u ->
  RegisterBody.username second = Some u ->
  post_auth_register st first = (Reply 201 (JMessage "User berhasil dibuat"), st1) ->
  exists p r,
    let created := User.mk u (Bcrypt p 10) r in
    RegisterBody.password first = Some p /\
    users st1 !! next_oid st = Some created /\
    post_auth_register st1 second = (Reply 400 (JMessage "Username sudah ada"), st1) /\
    users (snd (post_auth_register st1 second)) !! next_oid st = Some created.
Proof.
  intros Hu1 Hu2 H1.
  destruct (register_created st st1 first _ H1) as (u' & p & r & Hu' & Hp & Hr & _ & ->).
  assert (u' = u) by congruence. subst u'.
  exists p, r. simpl.
  assert (Hin : <[next_oid st := User.mk u (Bcrypt p 10) r]> (users st) !! next_oid st
                = Some (User.mk u (Bcrypt p 10) r)) by apply lookup_insert_eq.
  rewrite register_taken with (u := u); simpl; auto.
  apply username_taken_spec. exists (next_oid st), (User.mk u (Bcrypt p 10) r).
  simpl. auto.
Qed.

Lemma register_duplicate_username_witness :
  post_auth_register empty_db budi
    = (Reply 201 (JMessage "User berhasil dibuat"),
       snd (post_auth_register empty_db budi)) /\
  post_auth_register (snd (post_auth_register empty_db budi)) budi_again
    = (Reply 400 (JMessage "Username sudah ada"), snd (post_auth_register empty_db budi)).
Proof.
  assert (H : post_auth_register empty_db budi
              = (Reply 201 (JMessage "User berhasil dibuat"),
                 snd (post_auth_register empty_db budi))) by (vm_compute; reflexivity).
  split; [exact H|].
  destruct (register_duplicate_username empty_db _ budi budi_again "budi"
              eq_refl eq_refl H) as (p & r & _ & _ & Hsecond & _).
  exact Hsecond.
Defined.

(** ** Access control *)

(** The statuses the mutating routes can answer with. *)
Lemma handle_status (cfg : config) (now : Z) (st : db) (req : request) :
  In (status_of (fst (handle cfg now st req))) [Some 200; Some 201; Some 400; Some 500; None]%nat.
Proof.
  destruct req as [a r].
  destruct r as [b|b f|i b f|i|b|i q|i b|i]; open_handlers; simpl;
    repeat case_match; simplify_eq; simpl; tauto.
Qed.

(** C3, as the claim states it, fails: a product is created, and the
    database changed, by a request that carries no token at all, and by
    one whose token is not a signed token. *)
Lemma access_gate_counterexample :
  let create a := handle local_disk 0 empty_db (mkrequest a (PostProducts apple_body None)) in
  create None = (Reply 201 (JProduct 0 apple), apple_db) /\
  create (Some "Bearer not.a.token"%string) = (Reply 201 (JProduct 0 apple), apple_db) /\
  apple_db <> empty_db.
Proof.
  split; [vm_compute; reflexivity|]. split; [vm_compute; reflexivity|].
  intros H. apply (f_equal next_oid) in H. discriminate H.
Qed.

(** C3, amended.  No mutating route consults the session token: the reply
    and the resulting database are the same whatever [Authorization]
    header the request carries, and no route ever answers 401 or 403. *)
Theorem handle_ignores_authorization
    (cfg : config) (now : Z) (st : db) (a a' : option string) (r : route) :
  handle cfg now st (mkrequest a r) = handle cfg now st (mkrequest a' r) /\
  status_of (fst (handle cfg now st (mkrequest a r))) <> Some 401%nat /\
  status_of (fst (handle cfg now st (mkrequest a r))) <> Some 403%nat.
Proof.
  split; [reflexivity|].
  pose proof (handle_status cfg now st (mkrequest a r)) as H.
  split; intros E; rewrite E in H; simpl in H;
    repeat (destruct H as [H|H]; [discriminate H|]); exact H.
Qed.

(** ** Non-negative stock *)













(** ** Stock reductions in flight *)









(** * Further properties of the routes *)

Lemma with_products_same (st : db) : with_products (products st) st = st.
Proof. now destruct st. Qed.

Lemma with_users_same (st : db) : with_users (users st) st = st.
Proof. now destruct st. Qed.

(** ** Deleting products *)

(** X1.  Deleting a well-formed id that names no product is answered 200
    "Produk dihapus" and changes nothing. *)
Theorem delete_product_missing (st : db) (k : N) :
  products st !! k = None ->
  delete_products_id st (ObjectId k) = (Reply 200 (JMessage "Produk dihapus"), st).
Proof.
  intros Hk. unfold delete_products_id. simpl.
  now rewrite (delete_id _ _ Hk), with_products_same.
Qed.

Lemma delete_product_missing_witness :
  products apple_db !! 7%N = None /\
  delete_products_id apple_db (ObjectId 7) = (Reply 200 (JMessage "Produk dihapus"), apple_db).
Proof.
  split; [reflexivity|]. exact (delete_product_missing apple_db 7 eq_refl).
Defined.

(** X2.  Deleting a product removes that product and nothing else: the
    other products, the users, the ledger and the id counter stay as they
    were, and deleting the same id again changes nothing more. *)
Theorem delete_product_removes_one (st : db) (k : N) :
  let st' := snd (delete_products_id st (ObjectId k)) in
  fst (delete_products_id st (ObjectId k)) = Reply 200 (JMessage "Produk dihapus") /\
  products st' !! k = None /\
  (forall k', k' <> k -> products st' !! k' = products st !! k') /\
  users st' = users st /\
  transactions st' = transactions st /\
  next_oid st' = next_oid st /\
  delete_products_id st' (ObjectId k) = (Reply 200 (JMessage "Produk dihapus"), st').
Proof.
  simpl. split; [reflexivity|]. split; [apply lookup_delete_eq|].
  split; [intros k' Hk'; now apply lookup_delete_ne|].
  repeat (split; [reflexivity|]).
  unfold delete_products_id, with_products. simpl. f_equal. f_equal.
  apply delete_id, lookup_delete_eq.
Qed.

(** ** Stock reduction: edges and frame *)



(** X4.  A stock reduction touches nothing but the stock of the product it
    names: users, ledger and id counter are unchanged, every other
    product is unchanged, and the named product keeps its name, price
    and image. *)
Theorem reduce_stock_frame (st : db) (id : id_param) (v : Js.value) :
  let st' := snd (post_products_id_reduce_stock st id v) in
  users st' = users st /\
  transactions st' = transactions st /\
  next_oid st' = next_oid st /\
  forall k,
    products st' !! k = products st !! k \/
    (id = ObjectId k /\
     exists p s, products st !! k = Some p /\
                 products st' !! k = Some (Product.mk (Product.nama p) (Product.harga p) s
                                                      (Product.gambar p))).
Proof.
  unfold post_products_id_reduce_stock, reduce_stock_find, reduce_stock_save.
  destruct id as [k0|raw]; simpl; [|auto].
  destruct (products st !! k0) as [p|] eqn:Hk0; simpl; [|auto].
  destruct (Js.ToNumber v) as [|q]; simpl; [auto|].
  destruct (q <=? Product.stok p); simpl; [|auto].
  rewrite Hk0. simpl. repeat (split; [reflexivity|]).
  intros k. destruct (decide (k0 = k)) as [<-|Hne].
  - right. split; [reflexivity|]. exists p, (Product.stok p - q). split; [exact Hk0|].
    now rewrite lookup_insert_eq.
  - left. now rewrite lookup_insert_ne.
Qed.

(** ** Updating products: edges *)

(** X5.  An update of a well-formed id that names no product changes
    nothing; when its price and stock are numbers it is answered 200 with
    a null body, not with an error. *)
Theorem update_product_missing
    (cfg : config) (st : db) (k : N) (body : ProductBody.t) (file : option File.t) :
  products st !! k = None ->
  snd (put_products_id cfg st (ObjectId k) body file) = st /\
  (forall h s,
     Js.ToNumber (ProductBody.harga body) = Js.Num h ->
     Js.ToNumber (ProductBody.stok body) = Js.Num s ->
     fst (put_products_id cfg st (ObjectId k) body file) = Reply 200 JNull).
Proof.
  intros Hk. unfold put_products_id, Product_castUpdate. simpl.
  destruct (Js.ToNumber (ProductBody.harga body)) as [|h]; simpl.
  - split; [reflexivity|]. intros h s H. discriminate H.
  - destruct (Js.ToNumber (ProductBody.stok body)) as [|s]; simpl.
    + split; [reflexivity|]. intros h' s' _ H. discriminate H.
    + rewrite Hk. split; [reflexivity|]. reflexivity.
Qed.

Lemma update_product_missing_witness :
  products apple_db !! 7%N = None /\
  put_products_id local_disk apple_db (ObjectId 7) apple_body None = (Reply 200 JNull, apple_db).
Proof.
  split; [reflexivity|].
  destruct (update_product_missing local_disk apple_db 7 apple_body None eq_refl)
    as [Hst Hreply].
  specialize (Hreply 10000 50 eq_refl eq_refl).
  destruct (put_products_id local_disk apple_db (ObjectId 7) apple_body None) as [r st'].
  simpl in *. now subst.
Defined.

(** X6.  Validators run on creation only: a body with an empty name and
    numeric price and stock is refused by creation, which stores nothing,
    and accepted by update, which stores the empty name with the price
    and stock supplied. *)
Theorem empty_name_create_update
    (cfg : config) (st : db) (k : N) (old : Product.t) (body : ProductBody.t)
    (file : option File.t) (h s : Z) :
  products st !! k = Some old ->
  ProductBody.nama body = Some ""%string ->
  Js.ToNumber (ProductBody.harga body) = Js.Num h ->
  Js.ToNumber (ProductBody.stok body) = Js.Num s ->
  post_products cfg st body file
    = (Reply 400 (JError (ValidationError ["nama"%string])), st) /\
  exists new,
    products (snd (put_products_id cfg st (ObjectId k) body file)) !! k = Some new /\
    Product.nama new = ""%string /\ Product.harga new = h /\ Product.stok new = s.
Proof.
  intros Hk Hn Hh Hs. split.
  - unfold post_products. now rewrite Hn, Hh, Hs.
  - rewrite (update_product_written cfg st k old body file h s Hk Hh Hs). simpl.
    eexists. rewrite lookup_insert_eq. split; [reflexivity|]. simpl.
    now rewrite Hn.
Qed.

Lemma empty_name_create_update_witness :
  products apple_db !! 0%N = Some apple /\
  post_products local_disk apple_db
      (ProductBody.mk (Some ""%string) (Js.Str "1") (Js.Str "2")) None
    = (Reply 400 (JError (ValidationError ["nama"%string])), apple_db).
Proof.
  split; [reflexivity|].
  exact (proj1 (empty_name_create_update local_disk apple_db 0 apple
                  (ProductBody.mk (Some ""%string) (Js.Str "1") (Js.Str "2")) None 1 2
                  eq_refl eq_refl eq_refl eq_refl)).
Defined.

(** X7.  An id that is not an ObjectId never changes the database; the
    product update and the user update answer 400, the product deletion
    and the stock reduction answer 500, and the user deletion, which has
    no [catch], sends no reply at all. *)
Theorem malformed_id_replies
    (cfg : config) (st : db) (raw : string) (body : ProductBody.t)
    (file : option File.t) (v : Js.value) (ubody : RegisterBody.t) :
  put_products_id cfg st (NotObjectId raw) body file
    = (Reply 400 (JError (CastError "_id")), st) /\
  delete_products_id st (NotObjectId raw) = (Reply 500 (JError (CastError "_id")), st) /\
  post_products_id_reduce_stock st (NotObjectId raw) v
    = (Reply 500 (JError (CastError "_id")), st) /\
  put_users_id st (NotObjectId raw) ubody = (Reply 400 (JError (CastError "_id")), st) /\
  delete_users_id st (NotObjectId raw) = (Unhandled (CastError "_id"), st).
Proof. repeat split. Qed.

(** ** Stock reductions one after the other *)






(** ** An update between the two halves of a reduction *)



(** ** The sales route: casts and independence from the stock *)



(** X11.  Recording a sale and reducing a stock do not see each other:
    the sale leaves users and products as they are, and the two requests
    give the same replies and the same database in either order. *)
Theorem record_sale_reduce_stock_commute
    (now : Z) (st : db) (body : TransactionBody.t) (id : id_param) (v : Js.value) :
  let sale_first := post_transactions now st body in
  let reduce_first := post_products_id_reduce_stock st id v in
  products (snd sale_first) = products st /\
  users (snd sale_first) = users st /\
  fst (post_products_id_reduce_stock (snd sale_first) id v) = fst reduce_first /\
  fst (post_transactions now (snd reduce_first) body) = fst sale_first /\
  snd (post_products_id_reduce_stock (snd sale_first) id v)
    = snd (post_transactions now (snd reduce_first) body).
Proof.
  unfold post_transactions, Transaction_save, bind.
  destruct (castOptionalNumber "jumlah" _) as [j|e]; simpl;
    [destruct (castOptionalNumber "totalHarga" _) as [t|e]; simpl|];
    unfold post_products_id_reduce_stock, reduce_stock_find, reduce_stock_save;
    destruct id as [k|raw]; simpl; try (repeat split; fail);
    destruct (products st !! k) as [p|] eqn:Hk; simpl; try (repeat split; fail);
    destruct (Js.ToNumber v) as [|q]; simpl; try (repeat split; fail);
    destruct (q <=? Product.stok p); simpl; try (repeat split; fail);
    rewrite Hk; simpl; repeat split.
Qed.

(** ** The sales listing *)





(** ** Registration: what succeeds and what the failures say *)


Lemma register_dichotomy (st : db) (body : RegisterBody.t) :
  post_auth_register st body = (Reply 400 (JMessage "Username sudah ada"), st) \/
  exists st', post_auth_register st body = (Reply 201 (JMessage "User berhasil dibuat"), st').
Proof.
  unfold post_auth_register. destruct (bind _ _) as [st'|e]; [right; eauto|now left].
Qed.



(** X14.  Every registration that does not succeed is answered 400
    "Username sudah ada" and changes nothing, whatever went wrong: the
    answer is the same for a missing password, a missing or empty
    username and a role outside the two allowed, also when no user holds
    the username. *)
Theorem register_failures_all_alike (st : db) (body : RegisterBody.t) :
  (post_auth_register st body = (Reply 400 (JMessage "Username sudah ada"), st) \/
   exists st', post_auth_register st body
               = (Reply 201 (JMessage "User berhasil dibuat"), st')) /\
  (RegisterBody.password body = None \/
   RegisterBody.username body = None \/
   RegisterBody.username body = Some ""%string \/
   (exists r, RegisterBody.role body = Some r /\ r <> "admin"%string /\ r <> "staff"%string) ->
   post_auth_register st body = (Reply 400 (JMessage "Username sudah ada"), st)).
Proof.
  split; [apply register_dichotomy|].
  intros H. unfold post_auth_register, User_save.
  destruct body as [name pw role]. simpl in *.
  destruct H as [->|[->|[->|(r0 & -> & Ha & Hs)]]].
  - reflexivity.
  - destruct pw; reflexivity.
  - destruct pw; reflexivity.
  - destruct pw as [p|]; [|reflexivity]. simpl.
    destruct name as [[|c w]|]; try reflexivity.
    unfold User_role. apply String.eqb_neq in Ha, Hs. now rewrite Ha, Hs.
Qed.

Lemma register_failures_all_alike_witness :
  RegisterBody.password (RegisterBody.mk (Some "siti"%string) None None) = None /\
  post_auth_register empty_db (RegisterBody.mk (Some "siti"%string) None None)
    = (Reply 400 (JMessage "Username sudah ada"), empty_db).
Proof.
  split; [reflexivity|].
  exact (proj2 (register_failures_all_alike empty_db
                  (RegisterBody.mk (Some "siti"%string) None None)) (or_introl eq_refl)).
Defined.

(** ** Usernames stay unique *)

Lemma username_free (us : gmap N User.t) (self : option N) (u : string) :
  username_taken us self u = false ->
  forall k usr, us !! k = Some usr -> Some k <> self -> User.username usr <> u.
Proof.
  intros Hfree k usr Hk Hself Heq.
  assert (H : username_taken us self u = true).
  { apply username_taken_spec. now exists k, usr. }
  congruence.
Qed.

Lemma unique_usernames_insert (us : gmap N User.t) (k : N) (new : User.t) :
  unique_usernames us ->
  (forall k' usr', us !! k' = Some usr' -> k' <> k ->
                   User.username usr' <> User.username new) ->
  unique_usernames (<[k := new]> us).
Proof.
  intros Huniq Hnew k1 k2 u1 u2 H1 H2 Heq.
  destruct (decide (k1 = k)) as [->|N1], (decide (k2 = k)) as [->|N2]; [reflexivity|..].
  - rewrite lookup_insert_eq in H1. rewrite lookup_insert_ne in H2 by congruence.
    injection H1 as <-. now destruct (Hnew k2 u2 H2 N2).
  - rewrite lookup_insert_eq in H2. rewrite lookup_insert_ne in H1 by congruence.
    injection H2 as <-. now destruct (Hnew k1 u1 H1 N1).
  - rewrite lookup_insert_ne in H1 by congruence.
    rewrite lookup_insert_ne in H2 by congruence. now apply (Huniq k1 k2 u1 u2).
Qed.

Lemma unique_usernames_delete (us : gmap N User.t) (k : N) :
  unique_usernames us -> unique_usernames (delete k us).
Proof.
  intros Huniq k1 k2 u1 u2 H1 H2.
  apply lookup_delete_Some in H1 as [_ H1]. apply lookup_delete_Some in H2 as [_ H2].
  now apply Huniq.
Qed.

Lemma register_unique (st : db) (body : RegisterBody.t) :
  unique_usernames (users st) ->
  unique_usernames (users (snd (post_auth_register st body))).
Proof.
  intros Huniq. destruct (register_dichotomy st body) as [->|[st' E]]; [exact Huniq|].
  rewrite E. destruct (register_created st st' body _ E)
    as (u & p & r & _ & _ & _ & Hfree & ->). simpl.
  apply unique_usernames_insert; [exact Huniq|].
  intros k' usr' Hk' _. simpl. now apply (username_free _ _ _ Hfree k' usr' Hk').
Qed.

Lemma update_user_unique (st : db) (id : id_param) (body : RegisterBody.t) :
  unique_usernames (users st) ->
  unique_usernames (users (snd (put_users_id st id body))).
Proof.
  intros Huniq. unfold put_users_id.
  destruct (castObjectId id) as [k|e]; [|exact Huniq].
  destruct (users st !! k) as [old|] eqn:Hk; [|exact Huniq].
  destruct (RegisterBody.username body) as [u|].
  - destruct (username_taken (users st) (Some k) u) eqn:Hfree; [exact Huniq|]. simpl.
    apply unique_usernames_insert; [exact Huniq|].
    intros k' usr' Hk' Hne. simpl.
    apply (username_free _ _ _ Hfree k' usr' Hk'). congruence.
  - simpl. apply unique_usernames_insert; [exact Huniq|].
    intros k' usr' Hk' Hne Heq. simpl in Heq.
    apply Hne. now apply (Huniq k' k usr' old).
Qed.

Lemma handle_unique (cfg : config) (now : Z) (st : db) (req : request) :
  unique_usernames (users st) ->
  unique_usernames (users (snd (handle cfg now st req))).
Proof.
  intros Huniq. destruct req as [a r].
  destruct r as [b|b f|i b f|i|b|i q|i b|i]; unfold handle; simpl.
  - now apply register_unique.
  - unfold post_products. repeat case_match; exact Huniq.
  - unfold put_products_id, bind. repeat case_match; simplify_eq; exact Huniq.
  - unfold delete_products_id. repeat case_match; exact Huniq.
  - unfold post_transactions, Transaction_save, bind.
    repeat case_match; simplify_eq; exact Huniq.
  - unfold post_products_id_reduce_stock, reduce_stock_find, reduce_stock_save.
    repeat case_match; simplify_eq; exact Huniq.
  - now apply update_user_unique.
  - unfold delete_users_id. destruct (castObjectId i); [|exact Huniq].
    simpl. now apply unique_usernames_delete.
Qed.

Lemma step_unique (cfg : config) (s : system) (ev : event) :
  unique_usernames (users (store s)) ->
  unique_usernames (users (store (step cfg s ev))).
Proof.
  intros Huniq. destruct ev as [now req|id q|i]; simpl.
  - pose proof (handle_unique cfg now (store s) req Huniq) as H.
    now destruct (handle cfg now (store s) req).
  - now destruct (reduce_stock_find (store s) id q).
  - destruct (tasks s !! i) as [[p|r]|]; try exact Huniq.
    unfold reduce_stock_save. repeat case_match; simplify_eq; exact Huniq.
Qed.

(** X15.  No two users ever share a username: from a database where
    usernames are unique, whatever requests are served and however stock
    reductions interleave with them, usernames are unique afterwards. *)
Theorem usernames_stay_unique (cfg : config) (st : db) (evs : list event) :
  unique_usernames (users st) ->
  unique_usernames (users (store (run cfg (fresh st) evs))).
Proof.
  intros Huniq. change st with (store (fresh st)) in Huniq.
  generalize dependent (fresh st). induction evs as [|ev evs IH]; intros s Hs.
  - exact Hs.
  - apply (IH (step cfg s ev)). now apply step_unique.
Qed.

Lemma unique_usernames_empty : unique_usernames (users empty_db).
Proof. intros k1 k2 u1 u2 H. simpl in H. rewrite lookup_empty in H. discriminate. Qed.

Lemma usernames_stay_unique_witness :
  unique_usernames (users empty_db) /\
  unique_usernames
    (users (store (run local_disk (fresh empty_db)
                     [Serve 0 (mkrequest None (PostAuthRegister budi));
                      Serve 0 (mkrequest None (PostAuthRegister budi_again))]))).
Proof.
  split; [exact unique_usernames_empty|].
  exact (usernames_stay_unique local_disk empty_db _ unique_usernames_empty).
Defined.

(** ** Login *)

Lemma User_findOne_Some (us : gmap N User.t) (u : string) (k : N) (usr : User.t) :
  User_findOne us u = Some (k, usr) -> us !! k = Some usr /\ User.username usr = u.
Proof.
  intros H. apply find_some in H as [Hin Heq]. simpl in Heq. split.
  - now apply elem_of_map_to_list, list_elem_of_In.
  - now apply String.eqb_eq.
Qed.

Lemma User_findOne_None (us : gmap N User.t) (u : string) :
  User_findOne us u = None ->
  forall k usr, us !! k = Some usr -> User.username usr <> u.
Proof.
  intros H k usr Hk Heq.
  assert (Hin : In (k, usr) (map_to_list us)).
  { now apply list_elem_of_In, elem_of_map_to_list. }
  pose proof (find_none _ _ H _ Hin) as Hneq. simpl in Hneq.
  apply String.eqb_neq in Hneq. contradiction.
Qed.

(** X16.  After a registration has succeeded, a login with the same
    username and password is answered with a token: it carries the id
    under which the user was stored and the user's role, and is signed
    with the server's secret. *)
Theorem register_then_login
    (secret : string) (st st1 : db) (body : RegisterBody.t) (u p m : string) :
  post_auth_register st body = (Reply 201 (JMessage m), st1) ->
  RegisterBody.username body = Some u ->
  RegisterBody.password body = Some p ->
  exists r,
    users st1 !! next_oid st = Some (User.mk u (Bcrypt p 10) r) /\
    post_auth_login secret st1 (LoginBody.mk u (Some p))
      = Authenticated (Jwt (next_oid st) r secret) r u.
Proof.
  intros H Hu Hp.
  destruct (register_created st st1 body m H) as (u' & p' & r & Hu' & Hp' & _ & Hfree & ->).
  assert (u' = u) by congruence. assert (p' = p) by congruence. subst u' p'.
  exists r. simpl. split; [apply lookup_insert_eq|].
  unfold post_auth_login. simpl.
  destruct (User_findOne _ u) as [[k usr]|] eqn:Hfind.
  - apply User_findOne_Some in Hfind as [Hk Hname].
    destruct (decide (k = next_oid st)) as [->|Hne].
    + rewrite lookup_insert_eq in Hk. injection Hk as <-. simpl.
      now rewrite String.eqb_refl.
    + rewrite lookup_insert_ne in Hk by congruence.
      now destruct (username_free _ _ _ Hfree k usr Hk).
  - destruct (User_findOne_None _ _ Hfind (next_oid st) (User.mk u (Bcrypt p 10) r));
      [apply lookup_insert_eq|reflexivity].
Qed.

Lemma register_then_login_witness :
  post_auth_register empty_db budi
    = (Reply 201 (JMessage "User berhasil dibuat"), snd (post_auth_register empty_db budi)) /\
  exists r,
    post_auth_login "kunci" (snd (post_auth_register empty_db budi))
        (LoginBody.mk "budi" (Some "rahasia"%string))
      = Authenticated (Jwt 0 r "kunci") r "budi".
Proof.
  assert (H : post_auth_register empty_db budi
              = (Reply 201 (JMessage "User berhasil dibuat"),
                 snd (post_auth_register empty_db budi))) by (vm_compute; reflexivity).
  split; [exact H|].
  destruct (register_then_login "kunci" empty_db _ budi "budi" "rahasia" _ H eq_refl eq_refl)
    as (r & _ & Hlogin).
  exists r. exact Hlogin.
Defined.





(** X19.  A login without a password tells a known username from an
    unknown one: for a stored username [bcrypt.compare] throws and the
    answer is 500, for an unknown one the answer is 401. *)
Theorem login_without_password (secret : string) (st : db) (u : string) :
  ((exists k usr, users st !! k = Some usr /\ User.username usr = u) ->
   post_auth_login secret st (LoginBody.mk u None)
     = Refused (Reply 500 (JError IllegalArguments))) /\
  ((forall k usr, users st !! k = Some usr -> User.username usr <> u) ->
   post_auth_login secret st (LoginBody.mk u None)
     = Refused (Reply 401 (JMessage "Username/Password Salah"))).
Proof.
  unfold post_auth_login. simpl. split.
  - intros (k & usr & Hk & Hname).
    destruct (User_findOne _ u) as [[k' usr']|] eqn:Hfind; [reflexivity|].
    now destruct (User_findOne_None _ _ Hfind k usr Hk).
  - intros Hnone.
    destruct (User_findOne _ u) as [[k' usr']|] eqn:Hfind; [|reflexivity].
    apply User_findOne_Some in Hfind as [Hk Hname]. now destruct (Hnone k' usr' Hk).
Qed.

Lemma login_without_password_witness :
  let st1 := snd (post_auth_register empty_db budi) in
  (exists k usr, users st1 !! k = Some usr /\ User.username usr = "budi"%string) /\
  post_auth_login "kunci" st1 (LoginBody.mk "budi" None)
    = Refused (Reply 500 (JError IllegalArguments)).
Proof.
  assert (H : exists k usr, users (snd (post_auth_register empty_db budi)) !! k = Some usr /\
                            User.username usr = "budi"%string).
  { exists 0%N, (User.mk "budi" (Bcrypt "rahasia" 10) "staff"). split; reflexivity. }
  split; [exact H|].
  exact (proj1 (login_without_password "kunci" _ "budi") H).
Defined.

(** ** Updating and deleting users *)

(** X20.  After a user update the user is still there, and what the body
    leaves out keeps its value: the username and the role when absent,
    the password hash when the password is absent or the empty string.
    A non-empty password sent without a username replaces the hash by
    the hash of that password at cost 10. *)
Theorem update_user_frame (st : db) (k : N) (old : User.t) (body : RegisterBody.t) :
  users st !! k = Some old ->
  exists new,
    users (snd (put_users_id st (ObjectId k) body)) !! k = Some new /\
    (RegisterBody.username body = None -> User.username new = User.username old) /\
    (RegisterBody.role body = None -> User.role new = User.role old) /\
    (RegisterBody.password body = None \/ RegisterBody.password body = Some ""%string ->
       User.password new = User.password old) /\
    (forall p, RegisterBody.password body = Some p -> p <> ""%string ->
               RegisterBody.username body = None ->
       User.password new = Bcrypt p 10).
Proof.
  intros Hk. unfold put_users_id. simpl. rewrite Hk.
  destruct body as [name pw role]. simpl.
  destruct name as [u|].
  - destruct (username_taken (users st) (Some k) u); simpl.
    + exists old. split; [exact Hk|]. split; [discriminate|]. split; [reflexivity|].
      split; [reflexivity|]. discriminate.
    + eexists. rewrite lookup_insert_eq. split; [reflexivity|]. simpl.
      split; [discriminate|]. split; [now intros ->|].
      split; [now intros [->| ->]|discriminate].
  - simpl. eexists. rewrite lookup_insert_eq. split; [reflexivity|]. simpl.
    split; [reflexivity|]. split; [now intros ->|].
    split; [now intros [->| ->]|].
    intros p -> Hp _. destruct p; [contradiction|reflexivity].
Qed.

Lemma update_user_frame_witness :
  let st1 := snd (post_auth_register empty_db budi) in
  users st1 !! 0%N = Some (User.mk "budi" (Bcrypt "rahasia" 10) "staff") /\
  exists new,
    users (snd (put_users_id st1 (ObjectId 0)
                  (RegisterBody.mk None (Some ""%string) (Some "admin"%string)))) !! 0%N
      = Some new /\
    User.username new = "budi"%string /\ User.password new = Bcrypt "rahasia" 10.
Proof.
  split; [reflexivity|].
  destruct (update_user_frame (snd (post_auth_register empty_db budi)) 0
              (User.mk "budi" (Bcrypt "rahasia" 10) "staff")
              (RegisterBody.mk None (Some ""%string) (Some "admin"%string)) eq_refl)
    as (new & Hnew & Hname & _ & Hpw & _).
  exists new. split; [exact Hnew|].
  split; [exact (Hname eq_refl)|exact (Hpw (or_intror eq_refl))].
Defined.

(** X21.  The user update checks the unique index and nothing else: any
    string is stored as the role, also one that registration refuses,
    and a username held by another user is refused with 400 and changes
    nothing. *)
Theorem update_user_checks (st : db) (k : N) (old : User.t) :
  users st !! k = Some old ->
  (forall r,
     users (snd (put_users_id st (ObjectId k) (RegisterBody.mk None None (Some r)))) !! k
       = Some (User.mk (User.username old) (User.password old) r)) /\
  (forall k' other pw role,
     users st !! k' = Some other -> k' <> k ->
     put_users_id st (ObjectId k)
         (RegisterBody.mk (Some (User.username other)) pw role)
       = (Reply 400 (JError (DuplicateKey "username")), st)).
Proof.
  intros Hk. split.
  - intros r. unfold put_users_id. simpl. rewrite Hk. simpl. apply lookup_insert_eq.
  - intros k' other pw role Hk' Hne. unfold put_users_id. simpl. rewrite Hk.
    assert (Htaken : username_taken (users st) (Some k) (User.username other) = true).
    { apply username_taken_spec. exists k', other. repeat split; [exact Hk'|congruence]. }
    now rewrite Htaken.
Qed.

Lemma update_user_checks_witness :
  let st1 := snd (post_auth_register empty_db budi) in
  users st1 !! 0%N = Some (User.mk "budi" (Bcrypt "rahasia" 10) "staff") /\
  users (snd (put_users_id st1 (ObjectId 0)
                (RegisterBody.mk None None (Some "pemilik"%string)))) !! 0%N
    = Some (User.mk "budi" (Bcrypt "rahasia" 10) "pemilik").
Proof.
  split; [reflexivity|].
  exact (proj1 (update_user_checks (snd (post_auth_register empty_db budi)) 0
                  (User.mk "budi" (Bcrypt "rahasia" 10) "staff") eq_refl)
               "pemilik"%string).
Defined.

(** X22.  Deleting a user frees the username: where usernames are unique,
    after the deletion of a user with a non-empty username the user is
    gone and a registration of that username with a password
    succeeds. *)
Theorem delete_user_frees_username (st : db) (k : N) (usr : User.t) (p : string) :
  users st !! k = Some usr ->
  unique_usernames (users st) ->
  User.username usr <> ""%string ->
  let st1 := snd (delete_users_id st (ObjectId k)) in
  fst (delete_users_id st (ObjectId k)) = Reply 200 (JMessage "User dihapus") /\
  users st1 !! k = None /\
  exists st2,
    post_auth_register st1 (RegisterBody.mk (Some (User.username usr)) (Some p) None)
      = (Reply 201 (JMessage "User berhasil dibuat"), st2).
Proof.
  intros Hk Huniq Hne. simpl. split; [reflexivity|]. split; [apply lookup_delete_eq|].
  unfold post_auth_register, User_save. simpl.
  destruct (User.username usr) as [|c w] eqn:Hname; [contradiction|]. simpl.
  assert (Hfree : username_taken (delete k (users st)) None (String c w) = false).
  { apply not_true_iff_false. intros Htaken.
    apply username_taken_spec in Htaken as (k' & usr' & Hk' & _ & Heq).
    apply lookup_delete_Some in Hk' as [Hneq Hk'].
    apply Hneq. symmetry. apply (Huniq k' k usr' usr Hk' Hk). congruence. }
  rewrite Hfree. eauto.
Qed.

Lemma delete_user_frees_username_witness :
  let st1 := snd (post_auth_register empty_db budi) in
  users st1 !! 0%N = Some (User.mk "budi" (Bcrypt "rahasia" 10) "staff") /\
  unique_usernames (users st1) /\
  exists st2,
    post_auth_register (snd (delete_users_id st1 (ObjectId 0)))
        (RegisterBody.mk (Some "budi"%string) (Some "baru"%string) None)
      = (Reply 201 (JMessage "User berhasil dibuat"), st2).
Proof.
  assert (Huniq : unique_usernames (users (snd (post_auth_register empty_db budi)))).
  { apply register_unique, unique_usernames_empty. }
  split; [reflexivity|]. split; [exact Huniq|].
  assert (Hne : User.username (User.mk "budi" (Bcrypt "rahasia" 10) "staff") <> ""%string)
    by discriminate.
  destruct (delete_user_frees_username (snd (post_auth_register empty_db budi)) 0
              (User.mk "budi" (Bcrypt "rahasia" 10) "staff") "baru" eq_refl Huniq Hne)
    as (_ & _ & Hreg).
  exact Hreg.
Defined.

(** ** The two servers *)



(** ** Two reductions that both read before either saves *)


